(** * Human-approval gate of the agent tools, and the currency lookups

    A shallow embedding of the three tool modules of the repository:

    - [shipping_agent/agent.py]: [place_shipping_order];
    - [image_generation_agent/agent.py]: [request_image_generation];
    - [currency_converter_agent/agent.py]: [get_fee_for_payment_method]
      and [get_exchange_rate].

    Python [int] is [Z], [str] is [string] (the bytes of the UTF-8 text),
    a [dict] with string keys is a [gmap string _], and the float constants
    of the lookup tables are carried as the exact decimal value of the
    source literal in [Q] (the code never computes with them). *)

From Stdlib Require Import Ascii QArith.
From stdpp Require Import gmap strings pretty.

Open Scope Z_scope.

(** ** Python values *)

Module Py.

(** The values the tools put into their result dicts. *)
Inductive value : Type :=
| VStr (s : string)
| VInt (n : Z)
| VFloat (q : Q).

Abbreviation dict := (gmap string value).

(** [{k1: v1, ..., kn: vn}]: entries are inserted left to right, a later
    entry for the same key replaces an earlier one. *)
Definition mk_dict (entries : list (string * value)) : dict :=
  fold_left (λ d kv, <[kv.1 := kv.2]> d) entries ∅.

(** [str(n)] for an [int], as an f-string field [{n}] renders it. *)
Definition str_of_int (n : Z) : string := pretty n.

(** [c.lower()] for one character: [A]..[Z] go to [a]..[z]. *)
Definition lower_char (c : ascii) : ascii :=
  let n := N_of_ascii c in
  if ((65 <=? n) && (n <=? 90))%N then ascii_of_N (n + 32) else c.

(** [s.lower()].  Bytes outside [A]..[Z] are kept: the model agrees with
    Python on every text whose cased letters are ASCII letters. *)
Fixpoint lower (s : string) : string :=
  match s with
  | EmptyString => EmptyString
  | String c rest => String (lower_char c) (lower rest)
  end.

End Py.

Import Py.

(** ** The invocation context of a gated tool *)

Module Adk.

(** Modelled from the spec: the confirmation value of the agent framework
    ([google.adk], not part of the repository).  [hint] and [payload] are
    what a tool passes to [request_confirmation]; [confirmed] is the
    approver's decision. *)
Record ToolConfirmation : Type := {
  hint : string;
  confirmed : bool;
  payload : option dict;
}.

(** Modelled from the spec: the invocation context handed to a gated tool.
    It exposes whether a decision is attached ([tool_confirmation]) and a
    method to request one; [requested_tool_confirmations] is the pending
    record(s) that method has written, oldest first. *)
Record ToolContext : Type := {
  tool_confirmation : option ToolConfirmation;
  requested_tool_confirmations : list ToolConfirmation;
}.

(** What a tool call can touch: the context object it was given and the
    lines it printed. *)
Record World : Type := {
  tool_context : ToolContext;
  stdout : list string;
}.

(** Tool bodies thread the world through their statements.  A body always
    returns: none of the tools raises. *)
Definition M (A : Type) : Type := World → A * World.

#[export] Instance M_ret : MRet M := λ A a w, (a, w).
#[export] Instance M_bind : MBind M :=
  λ A B f m w, let '(a, w') := m w in f a w'.

(** [tool_context.tool_confirmation] *)
Definition get_tool_confirmation : M (option ToolConfirmation) :=
  λ w, (tool_confirmation (tool_context w), w).

(** Modelled from the spec: [tool_context.request_confirmation(hint=...,
    payload=...)] writes a pending record, not yet decided. *)
Definition request_confirmation (h : string) (p : dict) : M unit :=
  λ w,
    let ctx := tool_context w in
    let record := {| hint := h; confirmed := false; payload := Some p |} in
    (tt, {| tool_context :=
              {| tool_confirmation := tool_confirmation ctx;
                 requested_tool_confirmations :=
                   requested_tool_confirmations ctx ++ [record] |};
            stdout := stdout w |}).

(** [print(line)] *)
Definition print (line : string) : M unit :=
  λ w, (tt, {| tool_context := tool_context w;
               stdout := stdout w ++ [line] |}).

(** A first attempt: no decision attached, nothing requested or printed. *)
Definition fresh : World :=
  {| tool_context := {| tool_confirmation := None;
                        requested_tool_confirmations := [] |};
     stdout := [] |}.

(** The approver's bare decision. *)
Definition decision (b : bool) : ToolConfirmation :=
  {| hint := ""; confirmed := b; payload := None |}.

(** The next turn of the same session, with the decision [c] attached. *)
Definition resume (c : ToolConfirmation) (w : World) : World :=
  {| tool_context :=
       {| tool_confirmation := Some c;
          requested_tool_confirmations :=
            requested_tool_confirmations (tool_context w) |};
     stdout := stdout w |}.

End Adk.

Import Adk.

(** ** shipping_agent/agent.py *)

Module Shipping.

Definition LARGE_ORDER_THRESHOLD : Z := 5.

(** "Places a shipping order. Requires approval if ordering more than 5
    containers."  The [tool_context] argument of the source is the context
    object of the world the body runs in. *)
Definition place_shipping_order (num_containers : Z) (destination : string)
  : M dict :=
  if (num_containers <=? LARGE_ORDER_THRESHOLD)%Z then
    mret (mk_dict
      [("status", VStr "approved");
       ("order_id", VStr ("ORD-" +:+ str_of_int num_containers +:+ "-AUTO"));
       ("num_containers", VInt num_containers);
       ("destination", VStr destination);
       ("message", VStr ("Order auto-approved: " +:+ str_of_int num_containers
                         +:+ " containers to " +:+ destination))])
  else
    (* Pause for approval *)
    tc ← get_tool_confirmation;
    match tc with
    | None =>
        request_confirmation
          ("⚠️ Large order: " +:+ str_of_int num_containers
           +:+ " containers to " +:+ destination +:+ ". Approve?")
          (mk_dict [("num_containers", VInt num_containers);
                    ("destination", VStr destination)]);;
        mret (mk_dict
          [("status", VStr "pending");
           ("message", VStr ("Order for " +:+ str_of_int num_containers
                             +:+ " containers requires approval"))])
    | Some c =>
        (* Resumed after approval *)
        if confirmed c then
          mret (mk_dict
            [("status", VStr "approved");
             ("order_id",
              VStr ("ORD-" +:+ str_of_int num_containers +:+ "-HUMAN"));
             ("num_containers", VInt num_containers);
             ("destination", VStr destination);
             ("message", VStr ("Order approved: " +:+ str_of_int num_containers
                               +:+ " containers to " +:+ destination))])
        else
          mret (mk_dict
            [("status", VStr "rejected");
             ("message", VStr ("Order rejected: " +:+ str_of_int num_containers
                               +:+ " containers to " +:+ destination))])
    end.

End Shipping.

(** ** image_generation_agent/agent.py *)

Module ImageGeneration.

Definition BULK_THRESHOLD : Z := 1.

(** "Handles approval logic for image generation."  As above, the
    [tool_context] argument is the context object of the world. *)
Definition request_image_generation (prompt : string) (num_images : Z)
  : M dict :=
  print ("🔧 Running request_image_generation: prompt='" +:+ prompt
         +:+ "', num_images=" +:+ str_of_int num_images);;
  (* Case 1: Auto-approved single image *)
  if (num_images <=? BULK_THRESHOLD)%Z then
    mret (mk_dict
      [("status", VStr "approved");
       ("message", VStr ("✅ Auto-approved: " +:+ str_of_int num_images
                         +:+ " image(s) for '" +:+ prompt +:+ "'."))])
  else
    (* Case 2: Pause and ask for approval *)
    tc ← get_tool_confirmation;
    match tc with
    | None =>
        request_confirmation
          ("⚠️ Bulk request for " +:+ str_of_int num_images
           +:+ " images. Approve generation for '" +:+ prompt +:+ "'?")
          (mk_dict [("prompt", VStr prompt);
                    ("num_images", VInt num_images)]);;
        mret (mk_dict
          [("status", VStr "pending");
           ("message", VStr ("⏸️ Awaiting approval for "
                             +:+ str_of_int num_images +:+ " image(s)."))])
    | Some c =>
        (* Case 3: Resuming after approval *)
        if confirmed c then
          mret (mk_dict
            [("status", VStr "approved");
             ("message", VStr ("✅ Approved bulk generation: "
                               +:+ str_of_int num_images
                               +:+ " image(s) for '" +:+ prompt +:+ "'."))])
        else
          mret (mk_dict
            [("status", VStr "rejected");
             ("message", VStr ("❌ Rejected bulk generation for '"
                               +:+ prompt +:+ "'."))])
    end.

End ImageGeneration.

(** ** currency_converter_agent/agent.py *)

Module CurrencyConverter.

Definition fee_database : gmap string Q :=
  <["bank transfer" := 0.01%Q]>
    (<["gold debit card" := 0.035%Q]>
       (<["platinum credit card" := 0.02%Q]> ∅)).

(** "Looks up the transaction fee percentage for a given payment method." *)
Definition get_fee_for_payment_method (method : string) : dict :=
  match fee_database !! lower method with
  | Some fee =>
      mk_dict [("status", VStr "success"); ("fee_percentage", VFloat fee)]
  | None =>
      mk_dict [("status", VStr "error");
               ("error_message",
                VStr ("Payment method '" +:+ method +:+ "' not found"))]
  end.

Definition rate_database : gmap string (gmap string Q) :=
  <["usd" := <["inr" := 83.58%Q]>
               (<["jpy" := 157.5%Q]> (<["eur" := 0.93%Q]> ∅))]> ∅.

(** "Looks up and returns the exchange rate between two currencies."
    [rate_database.get(base, {})] is the lookup with the empty dict as
    default. *)
Definition get_exchange_rate (base_currency target_currency : string)
  : dict :=
  match default ∅ (rate_database !! lower base_currency)
          !! lower target_currency with
  | Some rate =>
      mk_dict [("status", VStr "success"); ("rate", VFloat rate)]
  | None =>
      mk_dict [("status", VStr "error");
               ("error_message",
                VStr ("Unsupported currency pair: " +:+ base_currency
                      +:+ "/" +:+ target_currency))]
  end.

End CurrencyConverter.

Import Shipping ImageGeneration CurrencyConverter.

(** ** Reading a result *)

(** [result["status"]], when present. *)
Definition status (result : dict) : option value := result !! "status".

(** The decision attached to the call, if any. *)
Definition attached (w : World) : option ToolConfirmation :=
  tool_confirmation (tool_context w).

(** The pending records of the session. *)
Definition pending_records (w : World) : list ToolConfirmation :=
  requested_tool_confirmations (tool_context w).

(** ** Running the tool bodies *)

(** Unfolds the statements of a tool body down to the world they act on. *)
Ltac run_tool :=
  unfold place_shipping_order, request_image_generation,
    LARGE_ORDER_THRESHOLD, BULK_THRESHOLD, attached, pending_records,
    mbind, M_bind, mret, M_ret,
    get_tool_confirmation, request_confirmation, print in *;
  simpl in *.

(** Splits on the threshold test [n <= t] of a tool body. *)
Ltac split_threshold n t :=
  destruct (Z.leb_spec n t); try lia; simpl in *.

(** Reads the keys of a dict literal, in the goal and in the hypotheses. *)
Ltac read_dict :=
  unfold status, mk_dict in *; simpl in *; simplify_map_eq; try done.

(** Solves the classification of a status once it is computed. *)
Ltac classify n t w :=
  destruct (Z.leb_spec n t);
  [| destruct (attached w) as [c|]; [destruct (confirmed c) eqn:?|]];
  simpl; split_and!; try (split; intros);
  repeat match goal with
         | H : _ ∧ _ |- _ => destruct H
         | H : _ ∨ _ |- _ => destruct H
         | H : ∃ _, _ |- _ => destruct H
         end;
  try discriminate; try lia; try congruence; eauto 6.

(** At or below the threshold the order is approved on the spot, whatever
    the context holds, and the world is left as it was. *)
Lemma shipping_auto (n : Z) (dest : string) (w : World) :
  n ≤ LARGE_ORDER_THRESHOLD →
  status (place_shipping_order n dest w).1 = Some (VStr "approved")
  ∧ (place_shipping_order n dest w).1 !! "order_id"
    = Some (VStr ("ORD-" +:+ str_of_int n +:+ "-AUTO"))
  ∧ (place_shipping_order n dest w).2 = w.
Proof.
  intros Hn. run_tool. split_threshold n 5. split_and!; read_dict.
Qed.

(** Above the threshold with no decision attached the call suspends: the
    result is the two-key pending dict, and one record is written whose
    payload echoes the arguments. *)
Lemma shipping_suspend (n : Z) (dest : string) (w : World) :
  LARGE_ORDER_THRESHOLD < n → attached w = None →
  status (place_shipping_order n dest w).1 = Some (VStr "pending")
  ∧ dom (place_shipping_order n dest w).1 = {[ "status"; "message" ]}
  ∧ (∃ hint,
       pending_records (place_shipping_order n dest w).2
       = pending_records w
         ++ [ {| hint := hint; confirmed := false;
                 payload := Some (mk_dict [("num_containers", VInt n);
                                           ("destination", VStr dest)]) |} ])
  ∧ attached (place_shipping_order n dest w).2 = None
  ∧ stdout (place_shipping_order n dest w).2 = stdout w.
Proof.
  intros Hn Hnone. run_tool. split_threshold n 5.
  rewrite Hnone. simpl. split_and!; try (read_dict; fail).
  eexists. reflexivity.
Qed.

(** Above the threshold with a decision attached the flag decides, and the
    world is left as it was. *)
Lemma shipping_resumed
    (n : Z) (dest : string) (w : World) (c : ToolConfirmation) :
  LARGE_ORDER_THRESHOLD < n → attached w = Some c →
  status (place_shipping_order n dest w).1
  = Some (VStr (if confirmed c then "approved" else "rejected"))
  ∧ (place_shipping_order n dest w).1 !! "order_id"
    = (if confirmed c
       then Some (VStr ("ORD-" +:+ str_of_int n +:+ "-HUMAN")) else None)
  ∧ (place_shipping_order n dest w).2 = w.
Proof.
  intros Hn Hsome. run_tool. split_threshold n 5.
  rewrite Hsome. simpl. destruct (confirmed c); split_and!; read_dict.
Qed.

(** Every call of the image tool prints its one trace line first. *)
Lemma image_prints_one_line (prompt : string) (n : Z) (w : World) :
  ∃ line, stdout (request_image_generation prompt n w).2 = stdout w ++ [line].
Proof.
  run_tool. eexists.
  split_threshold n 1; [reflexivity|].
  destruct (tool_confirmation (tool_context w)) as [c|]; simpl;
    [destruct (confirmed c)|]; reflexivity.
Qed.

Lemma image_auto (prompt : string) (n : Z) (w : World) :
  n ≤ BULK_THRESHOLD →
  status (request_image_generation prompt n w).1 = Some (VStr "approved")
  ∧ dom (request_image_generation prompt n w).1 = {[ "status"; "message" ]}
  ∧ tool_context (request_image_generation prompt n w).2 = tool_context w.
Proof.
  intros Hn. run_tool. split_threshold n 1. split_and!; read_dict.
Qed.

Lemma image_suspend (prompt : string) (n : Z) (w : World) :
  BULK_THRESHOLD < n → attached w = None →
  status (request_image_generation prompt n w).1 = Some (VStr "pending")
  ∧ dom (request_image_generation prompt n w).1 = {[ "status"; "message" ]}
  ∧ (∃ hint,
       pending_records (request_image_generation prompt n w).2
       = pending_records w
         ++ [ {| hint := hint; confirmed := false;
                 payload := Some (mk_dict [("prompt", VStr prompt);
                                           ("num_images", VInt n)]) |} ])
  ∧ attached (request_image_generation prompt n w).2 = None.
Proof.
  intros Hn Hnone. run_tool. split_threshold n 1.
  rewrite Hnone. simpl. split_and!; try (read_dict; fail).
  eexists. reflexivity.
Qed.

Lemma image_resumed
    (prompt : string) (n : Z) (w : World) (c : ToolConfirmation) :
  BULK_THRESHOLD < n → attached w = Some c →
  status (request_image_generation prompt n w).1
  = Some (VStr (if confirmed c then "approved" else "rejected"))
  ∧ dom (request_image_generation prompt n w).1 = {[ "status"; "message" ]}
  ∧ tool_context (request_image_generation prompt n w).2 = tool_context w.
Proof.
  intros Hn Hsome. run_tool. split_threshold n 1.
  rewrite Hsome. simpl. destruct (confirmed c); split_and!; read_dict.
Qed.

(** ** The gate on a first attempt *)

(** C1: on a first attempt (no confirmation decision attached), with
    thresholds 5 for containers and 1 for images, [place_shipping_order]
    and [request_image_generation] return status "approved" when the size
    attribute is at most the threshold and status "pending" when it is
    strictly greater. *)
Theorem first_attempt_status (n : Z) (dest prompt : string) (w : World) :
  attached w = None →
  LARGE_ORDER_THRESHOLD = 5 ∧ BULK_THRESHOLD = 1
  ∧ (n ≤ LARGE_ORDER_THRESHOLD →
     status (place_shipping_order n dest w).1 = Some (VStr "approved"))
  ∧ (LARGE_ORDER_THRESHOLD < n →
     status (place_shipping_order n dest w).1 = Some (VStr "pending"))
  ∧ (n ≤ BULK_THRESHOLD →
     status (request_image_generation prompt n w).1 = Some (VStr "approved"))
  ∧ (BULK_THRESHOLD < n →
     status (request_image_generation prompt n w).1 = Some (VStr "pending")).
Proof.
  intros Hnone. split_and!; try reflexivity; intros Hn.
  - apply shipping_auto, Hn.
  - apply shipping_suspend; assumption.
  - apply image_auto, Hn.
  - apply image_suspend; assumption.
Qed.

Lemma first_attempt_status_witness :
  attached fresh = None
  ∧ status (place_shipping_order 3 "Rotterdam" fresh).1 = Some (VStr "approved")
  ∧ status (place_shipping_order 10 "Rotterdam" fresh).1 = Some (VStr "pending")
  ∧ status (request_image_generation "a cat" 1 fresh).1 = Some (VStr "approved")
  ∧ status (request_image_generation "a cat" 4 fresh).1 = Some (VStr "pending").
Proof.
  split; [reflexivity|].
  pose proof (first_attempt_status 3 "Rotterdam" "a cat" fresh eq_refl)
    as (_ & _ & Hship & _ & _ & _).
  pose proof (first_attempt_status 10 "Rotterdam" "a cat" fresh eq_refl)
    as (_ & _ & _ & Hship' & _ & _).
  pose proof (first_attempt_status 1 "Rotterdam" "a cat" fresh eq_refl)
    as (_ & _ & _ & _ & Himg & _).
  pose proof (first_attempt_status 4 "Rotterdam" "a cat" fresh eq_refl)
    as (_ & _ & _ & _ & _ & Himg').
  split_and!.
  - apply Hship. unfold LARGE_ORDER_THRESHOLD. lia.
  - apply Hship'. unfold LARGE_ORDER_THRESHOLD. lia.
  - apply Himg. unfold BULK_THRESHOLD. lia.
  - apply Himg'. unfold BULK_THRESHOLD. lia.
Defined.

(** ** The gate on a resumed attempt *)

(** C2: when the size attribute exceeds the threshold and a confirmation
    decision is attached, the result has status "approved" if the
    decision's [confirmed] flag is true and "rejected" if it is false. *)
Theorem resumed_above_threshold_status
    (n : Z) (dest prompt : string) (w : World) (c : ToolConfirmation) :
  attached w = Some c →
  (LARGE_ORDER_THRESHOLD < n →
     (confirmed c = true →
      status (place_shipping_order n dest w).1 = Some (VStr "approved"))
     ∧ (confirmed c = false →
        status (place_shipping_order n dest w).1 = Some (VStr "rejected")))
  ∧ (BULK_THRESHOLD < n →
     (confirmed c = true →
      status (request_image_generation prompt n w).1 = Some (VStr "approved"))
     ∧ (confirmed c = false →
        status (request_image_generation prompt n w).1
        = Some (VStr "rejected"))).
Proof.
  intros Hsome. split; intros Hn.
  - destruct (shipping_resumed n dest w c Hn Hsome) as (Hst & _).
    split; intros Hc; rewrite Hc in Hst; exact Hst.
  - destruct (image_resumed prompt n w c Hn Hsome) as (Hst & _).
    split; intros Hc; rewrite Hc in Hst; exact Hst.
Qed.

Lemma resumed_above_threshold_status_witness :
  status (place_shipping_order 10 "Rotterdam" (resume (decision true) fresh)).1
  = Some (VStr "approved")
  ∧ status (place_shipping_order 10 "Rotterdam"
              (resume (decision false) fresh)).1
    = Some (VStr "rejected")
  ∧ status (request_image_generation "a cat" 4
              (resume (decision true) fresh)).1
    = Some (VStr "approved")
  ∧ status (request_image_generation "a cat" 4
              (resume (decision false) fresh)).1
    = Some (VStr "rejected").
Proof.
  pose proof (resumed_above_threshold_status 10 "Rotterdam" "a cat"
                (resume (decision true) fresh) (decision true) eq_refl)
    as (Hship & _).
  pose proof (resumed_above_threshold_status 10 "Rotterdam" "a cat"
                (resume (decision false) fresh) (decision false) eq_refl)
    as (Hship' & _).
  pose proof (resumed_above_threshold_status 4 "Rotterdam" "a cat"
                (resume (decision true) fresh) (decision true) eq_refl)
    as (_ & Himg).
  pose proof (resumed_above_threshold_status 4 "Rotterdam" "a cat"
                (resume (decision false) fresh) (decision false) eq_refl)
    as (_ & Himg').
  split_and!.
  - apply Hship; [unfold LARGE_ORDER_THRESHOLD; lia | reflexivity].
  - apply Hship'; [unfold LARGE_ORDER_THRESHOLD; lia | reflexivity].
  - apply Himg; [unfold BULK_THRESHOLD; lia | reflexivity].
  - apply Himg'; [unfold BULK_THRESHOLD; lia | reflexivity].
Defined.

(** C3 does not hold as stated.  The threshold test comes first in both
    bodies, also on a resumed call: 3 containers (threshold 5) and 1 image
    (threshold 1) are approved although the attached decision is a
    rejection. *)
Lemma resumed_small_quantity_overrides_rejection :
  let w := resume (decision false) fresh in
  attached w = Some (decision false)
  ∧ status (place_shipping_order 3 "Rotterdam" w).1 = Some (VStr "approved")
  ∧ (place_shipping_order 3 "Rotterdam" w).1 !! "order_id"
    = Some (VStr "ORD-3-AUTO")
  ∧ status (place_shipping_order 3 "Rotterdam" w).1 ≠ Some (VStr "rejected")
  ∧ status (request_image_generation "a cat" 1 w).1 = Some (VStr "approved")
  ∧ status (request_image_generation "a cat" 1 w).1 ≠ Some (VStr "rejected").
Proof. vm_compute. split_and!; done. Qed.

(** C3, as the code has it: a resumed call (a decision attached) tests the
    threshold again before it looks at the decision.  At or below the
    threshold it returns "approved" whatever the decision says; strictly
    above, it returns "approved" exactly when [confirmed] is true and
    "rejected" exactly when [confirmed] is false. *)
Theorem resumed_status_rechecks_threshold
    (n : Z) (dest prompt : string) (w : World) (c : ToolConfirmation) :
  attached w = Some c →
  (n ≤ LARGE_ORDER_THRESHOLD →
     status (place_shipping_order n dest w).1 = Some (VStr "approved"))
  ∧ (LARGE_ORDER_THRESHOLD < n →
     (status (place_shipping_order n dest w).1 = Some (VStr "approved")
      ↔ confirmed c = true)
     ∧ (status (place_shipping_order n dest w).1 = Some (VStr "rejected")
        ↔ confirmed c = false))
  ∧ (n ≤ BULK_THRESHOLD →
     status (request_image_generation prompt n w).1 = Some (VStr "approved"))
  ∧ (BULK_THRESHOLD < n →
     (status (request_image_generation prompt n w).1 = Some (VStr "approved")
      ↔ confirmed c = true)
     ∧ (status (request_image_generation prompt n w).1 = Some (VStr "rejected")
        ↔ confirmed c = false)).
Proof.
  intros Hsome. split_and!; intros Hn.
  - apply shipping_auto, Hn.
  - destruct (shipping_resumed n dest w c Hn Hsome) as (-> & _).
    destruct (confirmed c); split; split; congruence.
  - apply image_auto, Hn.
  - destruct (image_resumed prompt n w c Hn Hsome) as (-> & _).
    destruct (confirmed c); split; split; congruence.
Qed.

Lemma resumed_status_rechecks_threshold_witness :
  let w := resume (decision false) fresh in
  status (place_shipping_order 3 "Rotterdam" w).1 = Some (VStr "approved")
  ∧ status (place_shipping_order 10 "Rotterdam" w).1 = Some (VStr "rejected")
  ∧ status (request_image_generation "a cat" 1 w).1 = Some (VStr "approved")
  ∧ status (request_image_generation "a cat" 4 w).1 = Some (VStr "rejected").
Proof.
  intros w.
  pose proof (resumed_status_rechecks_threshold 3 "Rotterdam" "a cat"
                w (decision false) eq_refl) as (Hship & _).
  pose proof (resumed_status_rechecks_threshold 10 "Rotterdam" "a cat"
                w (decision false) eq_refl) as (_ & Hship' & _).
  pose proof (resumed_status_rechecks_threshold 1 "Rotterdam" "a cat"
                w (decision false) eq_refl) as (_ & _ & Himg & _).
  pose proof (resumed_status_rechecks_threshold 4 "Rotterdam" "a cat"
                w (decision false) eq_refl) as (_ & _ & _ & Himg').
  split_and!.
  - apply Hship. unfold LARGE_ORDER_THRESHOLD. lia.
  - apply Hship'; [unfold LARGE_ORDER_THRESHOLD; lia | reflexivity].
  - apply Himg. unfold BULK_THRESHOLD. lia.
  - apply Himg'; [unfold BULK_THRESHOLD; lia | reflexivity].
Defined.

(** ** A decision with no pending record *)

(** The result of [place_shipping_order] is a function of the arguments and
    of the attached decision alone: the body never reads the pending
    records. *)
Lemma shipping_result_ignores_pending_records
    (n : Z) (dest : string) (w w' : World) :
  attached w = attached w' →
  (place_shipping_order n dest w).1 = (place_shipping_order n dest w').1.
Proof.
  intros Heq. run_tool. split_threshold n 5; [reflexivity|].
  rewrite Heq. destruct (tool_confirmation (tool_context w')) as [c|]; simpl;
    [destruct (confirmed c)|]; reflexivity.
Qed.

(** C4 does not hold as stated.  A decision for a session that never
    suspended (no pending record) is accepted: with [confirmed = true] the
    order for 10 containers is approved with a human order id, with
    [confirmed = false] it is rejected. *)
Lemma decision_without_pending_record_is_accepted :
  let w := resume (decision true) fresh in
  pending_records w = []
  ∧ attached w = Some (decision true)
  ∧ status (place_shipping_order 10 "Rotterdam" w).1 = Some (VStr "approved")
  ∧ (place_shipping_order 10 "Rotterdam" w).1 !! "order_id"
    = Some (VStr "ORD-10-HUMAN")
  ∧ status (place_shipping_order 10 "Rotterdam"
              (resume (decision false) fresh)).1
    = Some (VStr "rejected").
Proof. vm_compute. split_and!; done. Qed.

(** C4, as the code has it: [place_shipping_order] does not look for a
    pending record.  With a decision attached and no pending record it
    signals nothing: it returns a result with status "approved" (quantity
    at or below the threshold, or [confirmed] true) or "rejected"
    (otherwise), the same result as with a pending record present, and
    leaves the world as it was. *)
Theorem decision_without_pending_record
    (n : Z) (dest : string) (w : World) (c : ToolConfirmation) :
  attached w = Some c → pending_records w = [] →
  status (place_shipping_order n dest w).1
  = Some (VStr (if (n <=? LARGE_ORDER_THRESHOLD) || confirmed c
                then "approved" else "rejected"))
  ∧ (place_shipping_order n dest w).2 = w
  ∧ ∀ w', attached w' = Some c →
          (place_shipping_order n dest w').1 = (place_shipping_order n dest w).1.
Proof.
  intros Hsome _. split_and!.
  - destruct (Z.leb_spec n LARGE_ORDER_THRESHOLD) as [Hn|Hn]; simpl.
    + apply shipping_auto, Hn.
    + apply (shipping_resumed n dest w c Hn Hsome).
  - destruct (Z.leb_spec n LARGE_ORDER_THRESHOLD) as [Hn|Hn].
    + apply shipping_auto, Hn.
    + apply (shipping_resumed n dest w c Hn Hsome).
  - intros w' Hsome'. apply shipping_result_ignores_pending_records.
    congruence.
Qed.

Lemma decision_without_pending_record_witness :
  let w := resume (decision true) fresh in
  attached w = Some (decision true) ∧ pending_records w = []
  ∧ status (place_shipping_order 10 "Rotterdam" w).1 = Some (VStr "approved").
Proof.
  intros w. split_and!; [reflexivity..|].
  apply (decision_without_pending_record 10 "Rotterdam" w (decision true)
           eq_refl eq_refl).
Defined.

(** ** Order identifiers *)

Lemma app_cons (a : ascii) (s t : string) :
  String a s +:+ t = String a (s +:+ t).
Proof. reflexivity. Qed.

Lemma app_assoc_string (s t u : string) : (s +:+ t) +:+ u = s +:+ (t +:+ u).
Proof.
  induction s as [|a s IH]; [reflexivity|].
  rewrite !app_cons, IH. reflexivity.
Qed.

(** Two strings that are equal end in the same character. *)
Lemma app_last_char (s t : string) (a b : ascii) :
  s +:+ String a "" = t +:+ String b "" → a = b.
Proof.
  revert t. induction s as [|c s IH]; intros [|d t] Heq.
  - injection Heq as ->. reflexivity.
  - rewrite app_cons in Heq. injection Heq as _ Heq.
    destruct t; discriminate Heq.
  - rewrite app_cons in Heq. injection Heq as _ Heq.
    destruct s; discriminate Heq.
  - rewrite !app_cons in Heq. injection Heq as _ Heq. eauto.
Qed.

(** No human order id is an auto order id, for any two quantities. *)
Lemma human_id_is_no_auto_id (n m : Z) :
  "ORD-" +:+ str_of_int n +:+ "-HUMAN" ≠ "ORD-" +:+ str_of_int m +:+ "-AUTO".
Proof.
  intros Heq. apply (inj (String.app "ORD-")) in Heq.
  change "-HUMAN" with ("-HUMA" +:+ "N") in Heq.
  change "-AUTO" with ("-AUT" +:+ "O") in Heq.
  rewrite <- !app_assoc_string in Heq.
  apply app_last_char in Heq. discriminate Heq.
Qed.

(** C5: with threshold 5, an order for 10 containers first returns status
    "pending"; resumed with [confirmed = true] it returns status "approved"
    with order id "ORD-10-HUMAN".  For every quantity [n] above the
    threshold the human-approved order id is "ORD-n-HUMAN", which differs
    from the auto-approved pattern "ORD-m-AUTO" (the id of a quantity [m]
    at or below the threshold), for [m = n] and every other [m]. *)
Theorem human_order_id_distinct_from_auto :
  LARGE_ORDER_THRESHOLD = 5
  ∧ (let first := place_shipping_order 10 "Rotterdam" fresh in
     let second :=
       place_shipping_order 10 "Rotterdam" (resume (decision true) first.2) in
     status first.1 = Some (VStr "pending")
     ∧ status second.1 = Some (VStr "approved")
     ∧ second.1 !! "order_id" = Some (VStr "ORD-10-HUMAN")
     ∧ "ORD-10-HUMAN" ≠ "ORD-10-AUTO")
  ∧ (∀ (n : Z) (dest : string) (w : World) (c : ToolConfirmation),
       LARGE_ORDER_THRESHOLD < n → attached w = Some c → confirmed c = true →
       (place_shipping_order n dest w).1 !! "order_id"
       = Some (VStr ("ORD-" +:+ str_of_int n +:+ "-HUMAN"))
       ∧ "ORD-" +:+ str_of_int n +:+ "-HUMAN"
         ≠ "ORD-" +:+ str_of_int n +:+ "-AUTO")
  ∧ (∀ (n m : Z) (dest dest' : string) (w w' : World) (c : ToolConfirmation),
       LARGE_ORDER_THRESHOLD < n → attached w = Some c → confirmed c = true →
       m ≤ LARGE_ORDER_THRESHOLD →
       (place_shipping_order m dest' w').1 !! "order_id"
       = Some (VStr ("ORD-" +:+ str_of_int m +:+ "-AUTO"))
       ∧ (place_shipping_order n dest w).1 !! "order_id"
         ≠ (place_shipping_order m dest' w').1 !! "order_id").
Proof.
  split_and!.
  - reflexivity.
  - vm_compute. split_and!; done.
  - intros n dest w c Hn Hsome Hc.
    destruct (shipping_resumed n dest w c Hn Hsome) as (_ & Hid & _).
    rewrite Hc in Hid. split; [exact Hid | apply human_id_is_no_auto_id].
  - intros n m dest dest' w w' c Hn Hsome Hc Hm.
    destruct (shipping_resumed n dest w c Hn Hsome) as (_ & Hid & _).
    destruct (shipping_auto m dest' w' Hm) as (_ & Hid' & _).
    rewrite Hc in Hid. rewrite Hid, Hid'. split; [reflexivity|].
    intros Heq. apply (human_id_is_no_auto_id n m). congruence.
Qed.

Lemma human_order_id_distinct_from_auto_witness :
  (place_shipping_order 7 "Oslo" (resume (decision true) fresh)).1 !! "order_id"
  = Some (VStr "ORD-7-HUMAN")
  ∧ (place_shipping_order 7 "Oslo" (resume (decision true) fresh)).1
      !! "order_id"
    ≠ (place_shipping_order 2 "Oslo" fresh).1 !! "order_id".
Proof.
  pose proof human_order_id_distinct_from_auto as (_ & _ & Hsame & Hall).
  split.
  - apply (Hsame 7 "Oslo" (resume (decision true) fresh) (decision true));
      [unfold LARGE_ORDER_THRESHOLD; lia | reflexivity | reflexivity].
  - apply (Hall 7 2 "Oslo" "Oslo" (resume (decision true) fresh) fresh
             (decision true));
      [unfold LARGE_ORDER_THRESHOLD; lia | reflexivity | reflexivity
      | unfold LARGE_ORDER_THRESHOLD; lia].
Defined.

(** ** Shape of a pending result *)

(** C6: every result with status "pending" returned by
    [place_shipping_order] or [request_image_generation] holds exactly the
    keys "status" and "message", the message being a string, and so no
    "order_id", "num_containers" or "destination" field. *)
Theorem pending_result_has_no_domain_fields
    (n : Z) (dest prompt : string) (w : World) :
  let only_status_and_message (r : dict) :=
    dom r = {[ "status"; "message" ]}
    ∧ (∃ text, r !! "message" = Some (VStr text))
    ∧ r !! "order_id" = None
    ∧ r !! "num_containers" = None
    ∧ r !! "destination" = None in
  (status (place_shipping_order n dest w).1 = Some (VStr "pending") →
   only_status_and_message (place_shipping_order n dest w).1)
  ∧ (status (request_image_generation prompt n w).1 = Some (VStr "pending") →
     only_status_and_message (request_image_generation prompt n w).1).
Proof.
  intros only. subst only. split; intros Hpending; run_tool.
  - split_threshold n 5; [read_dict|].
    destruct (tool_confirmation (tool_context w)) as [c|]; simpl in *;
      [destruct (confirmed c); read_dict|].
    split_and!; try (read_dict; fail). eexists. read_dict.
  - split_threshold n 1; [read_dict|].
    destruct (tool_confirmation (tool_context w)) as [c|]; simpl in *;
      [destruct (confirmed c); read_dict|].
    split_and!; try (read_dict; fail). eexists. read_dict.
Qed.

Lemma pending_result_has_no_domain_fields_witness :
  dom (place_shipping_order 10 "Rotterdam" fresh).1 = {[ "status"; "message" ]}
  ∧ (place_shipping_order 10 "Rotterdam" fresh).1 !! "order_id" = None
  ∧ dom (request_image_generation "a cat" 4 fresh).1
    = {[ "status"; "message" ]}.
Proof.
  pose proof (pending_result_has_no_domain_fields 10 "Rotterdam" "a cat" fresh)
    as (Hship & _).
  pose proof (pending_result_has_no_domain_fields 4 "Rotterdam" "a cat" fresh)
    as (_ & Himg).
  split_and!.
  - apply Hship. reflexivity.
  - apply Hship. reflexivity.
  - apply Himg. reflexivity.
Defined.

(** ** The auto-approve path leaves no pending record *)

(** Each call of [request_confirmation] adds one pending record, and
    [print] adds none: a world with as many records as before has seen no
    confirmation request. *)
Lemma request_confirmation_adds_record (h : string) (p : dict) (w : World) :
  length (pending_records (request_confirmation h p w).2)
  = S (length (pending_records w)).
Proof.
  unfold pending_records, request_confirmation. simpl.
  rewrite length_app. simpl. lia.
Qed.

Lemma print_keeps_context (line : string) (w : World) :
  tool_context (print line w).2 = tool_context w.
Proof. reflexivity. Qed.

(** C7: when the size attribute is at most the threshold, both tools return
    "approved" and the invocation context comes back as it was: no call of
    [request_confirmation] was made and no pending record was created
    ([place_shipping_order] leaves the whole world untouched,
    [request_image_generation] only prints its trace line). *)
Theorem auto_approve_creates_no_pending_record
    (n : Z) (dest prompt : string) (w : World) :
  (n ≤ LARGE_ORDER_THRESHOLD →
     status (place_shipping_order n dest w).1 = Some (VStr "approved")
     ∧ (place_shipping_order n dest w).2 = w
     ∧ pending_records (place_shipping_order n dest w).2 = pending_records w)
  ∧ (n ≤ BULK_THRESHOLD →
     status (request_image_generation prompt n w).1 = Some (VStr "approved")
     ∧ tool_context (request_image_generation prompt n w).2 = tool_context w
     ∧ pending_records (request_image_generation prompt n w).2
       = pending_records w).
Proof.
  split; intros Hn.
  - destruct (shipping_auto n dest w Hn) as (Hst & _ & Hw).
    rewrite Hw. split_and!; [exact Hst | reflexivity..].
  - destruct (image_auto prompt n w Hn) as (Hst & _ & Hctx).
    unfold pending_records. rewrite Hctx. split_and!; [exact Hst | reflexivity..].
Qed.

Lemma auto_approve_creates_no_pending_record_witness :
  (place_shipping_order 3 "Rotterdam" fresh).2 = fresh
  ∧ pending_records (request_image_generation "a cat" 1 fresh).2 = [].
Proof.
  pose proof (auto_approve_creates_no_pending_record 3 "Rotterdam" "a cat" fresh)
    as (Hship & _).
  pose proof (auto_approve_creates_no_pending_record 1 "Rotterdam" "a cat" fresh)
    as (_ & Himg).
  split.
  - apply Hship. unfold LARGE_ORDER_THRESHOLD. lia.
  - apply Himg. unfold BULK_THRESHOLD. lia.
Defined.

(** ** The lookups of the currency converter *)






(** C9: the fee lookup for the mixed-case key "Platinum Credit Card" is the
    success result with fee_percentage 0.02; the lookup for "bitcoin" finds
    nothing and reports it as the error result whose message reads
    "Payment method 'bitcoin' not found". *)
Theorem fee_lookup_scenario :
  get_fee_for_payment_method "Platinum Credit Card"
  = mk_dict [("status", VStr "success"); ("fee_percentage", VFloat 0.02%Q)]
  ∧ fee_database !! lower "bitcoin" = None
  ∧ get_fee_for_payment_method "bitcoin"
    = mk_dict [("status", VStr "error");
               ("error_message", VStr "Payment method 'bitcoin' not found")].
Proof. split_and!; reflexivity. Qed.

(** The rates quoted for a base currency: those of "usd", none otherwise. *)
Lemma rates_of_base (base : string) :
  default ∅ (rate_database !! base)
  = if decide (base = "usd")
    then <["inr" := 83.58%Q]> (<["jpy" := 157.5%Q]> (<["eur" := 0.93%Q]> ∅))
    else ∅.
Proof.
  unfold rate_database. case_decide as Hbase.
  - subst base. rewrite lookup_insert_eq. reflexivity.
  - rewrite lookup_insert_ne by congruence. rewrite lookup_empty. reflexivity.
Qed.

(** C10: only "usd" (in any case) is a base currency.  A base whose
    lower-cased form is not "usd" gives an error result for every target;
    with base "usd" the lookup succeeds for the targets "eur", "jpy" and
    "inr" (in any case), with rates 0.93, 157.5 and 83.58, and gives an
    error result for every other target. *)
Theorem exchange_rate_supported_pairs (base target : string) :
  let result := get_exchange_rate base target in
  let success (rate : Q) :=
    mk_dict [("status", VStr "success"); ("rate", VFloat rate)] in
  (lower base ≠ "usd" →
     status result = Some (VStr "error") ∧ result !! "rate" = None)
  ∧ (lower base = "usd" →
     (lower target = "eur" → result = success 0.93%Q)
     ∧ (lower target = "jpy" → result = success 157.5%Q)
     ∧ (lower target = "inr" → result = success 83.58%Q)
     ∧ (lower target ≠ "eur" → lower target ≠ "jpy" → lower target ≠ "inr" →
        status result = Some (VStr "error") ∧ result !! "rate" = None)).
Proof.
  intros result success. subst result success.
  unfold get_exchange_rate. rewrite rates_of_base. split.
  - intros Hbase. rewrite decide_False by exact Hbase.
    rewrite lookup_empty. split; read_dict.
  - intros Hbase. rewrite decide_True by exact Hbase. split_and!.
    + intros ->. reflexivity.
    + intros ->. reflexivity.
    + intros ->. reflexivity.
    + intros Heur Hjpy Hinr.
      rewrite !lookup_insert_ne by congruence. rewrite lookup_empty.
      split; read_dict.
Qed.

Lemma exchange_rate_supported_pairs_witness :
  status (get_exchange_rate "EUR" "usd") = Some (VStr "error")
  ∧ get_exchange_rate "USD" "Eur"
    = mk_dict [("status", VStr "success"); ("rate", VFloat 0.93%Q)]
  ∧ get_exchange_rate "Usd" "JPY"
    = mk_dict [("status", VStr "success"); ("rate", VFloat 157.5%Q)]
  ∧ get_exchange_rate "usd" "Inr"
    = mk_dict [("status", VStr "success"); ("rate", VFloat 83.58%Q)]
  ∧ status (get_exchange_rate "usd" "gbp") = Some (VStr "error").
Proof.
  pose proof (exchange_rate_supported_pairs "EUR" "usd") as (Hother & _).
  pose proof (exchange_rate_supported_pairs "USD" "Eur") as (_ & Heur).
  pose proof (exchange_rate_supported_pairs "Usd" "JPY") as (_ & Hjpy).
  pose proof (exchange_rate_supported_pairs "usd" "Inr") as (_ & Hinr).
  pose proof (exchange_rate_supported_pairs "usd" "gbp") as (_ & Hgbp).
  split_and!.
  - apply Hother. discriminate.
  - apply Heur; reflexivity.
  - apply Hjpy; reflexivity.
  - apply Hinr; reflexivity.
  - apply Hgbp; [reflexivity | discriminate..].
Defined.

(** * Further properties of the tools *)

(** ** Which status comes out when *)

Lemma shipping_status (n : Z) (dest : string) (w : World) :
  status (place_shipping_order n dest w).1
  = Some (VStr (if n <=? LARGE_ORDER_THRESHOLD then "approved"
                else match attached w with
                     | None => "pending"
                     | Some c => if confirmed c then "approved" else "rejected"
                     end)).
Proof.
  destruct (Z.leb_spec n LARGE_ORDER_THRESHOLD) as [Hn|Hn].
  - apply shipping_auto, Hn.
  - destruct (attached w) as [c|] eqn:Hatt.
    + apply (shipping_resumed n dest w c Hn Hatt).
    + apply (shipping_suspend n dest w Hn Hatt).
Qed.

Lemma image_status (prompt : string) (n : Z) (w : World) :
  status (request_image_generation prompt n w).1
  = Some (VStr (if n <=? BULK_THRESHOLD then "approved"
                else match attached w with
                     | None => "pending"
                     | Some c => if confirmed c then "approved" else "rejected"
                     end)).
Proof.
  destruct (Z.leb_spec n BULK_THRESHOLD) as [Hn|Hn].
  - apply image_auto, Hn.
  - destruct (attached w) as [c|] eqn:Hatt.
    + apply (image_resumed prompt n w c Hn Hatt).
    + apply (image_suspend prompt n w Hn Hatt).
Qed.

(** X1: the status of a [place_shipping_order] result is "approved",
    "pending" or "rejected", never anything else.  It is "pending" exactly
    when the quantity exceeds the threshold and no decision is attached,
    "rejected" exactly when the quantity exceeds the threshold and the
    attached decision is not confirmed, and "approved" exactly when the
    quantity is at most the threshold or the attached decision is
    confirmed.  *)
Theorem shipping_status_classification (n : Z) (dest : string) (w : World) :
  let st := status (place_shipping_order n dest w).1 in
  (st = Some (VStr "approved") ∨ st = Some (VStr "pending")
   ∨ st = Some (VStr "rejected"))
  ∧ (st = Some (VStr "pending")
     ↔ LARGE_ORDER_THRESHOLD < n ∧ attached w = None)
  ∧ (st = Some (VStr "rejected")
     ↔ LARGE_ORDER_THRESHOLD < n
       ∧ ∃ c, attached w = Some c ∧ confirmed c = false)
  ∧ (st = Some (VStr "approved")
     ↔ n ≤ LARGE_ORDER_THRESHOLD
       ∨ ∃ c, attached w = Some c ∧ confirmed c = true).
Proof.
  intros st. subst st. rewrite shipping_status.
  classify n LARGE_ORDER_THRESHOLD w.
Qed.

(** X2: the same classification for [request_image_generation], with its
    own threshold. *)
Theorem image_status_classification (prompt : string) (n : Z) (w : World) :
  let st := status (request_image_generation prompt n w).1 in
  (st = Some (VStr "approved") ∨ st = Some (VStr "pending")
   ∨ st = Some (VStr "rejected"))
  ∧ (st = Some (VStr "pending") ↔ BULK_THRESHOLD < n ∧ attached w = None)
  ∧ (st = Some (VStr "rejected")
     ↔ BULK_THRESHOLD < n ∧ ∃ c, attached w = Some c ∧ confirmed c = false)
  ∧ (st = Some (VStr "approved")
     ↔ n ≤ BULK_THRESHOLD ∨ ∃ c, attached w = Some c ∧ confirmed c = true).
Proof.
  intros st. subst st. rewrite image_status.
  classify n BULK_THRESHOLD w.
Qed.

(** ** What a result carries *)

(** X3: an approved [place_shipping_order] result has exactly the keys
    status, order_id, num_containers, destination and message, and echoes
    the quantity and the destination it was called with; a rejected result
    has only status and message.  An order id is present exactly when the
    status is "approved". *)
Theorem shipping_result_fields (n : Z) (dest : string) (w : World) :
  let r := (place_shipping_order n dest w).1 in
  (status r = Some (VStr "approved") →
     dom r = {[ "status"; "order_id"; "num_containers"; "destination";
                "message" ]}
     ∧ r !! "num_containers" = Some (VInt n)
     ∧ r !! "destination" = Some (VStr dest))
  ∧ (status r = Some (VStr "rejected") →
     dom r = {[ "status"; "message" ]})
  ∧ (is_Some (r !! "order_id") ↔ status r = Some (VStr "approved")).
Proof.
  intros r. subst r. run_tool. split_threshold n 5.
  - split_and!; [intros _; split_and!; read_dict | read_dict |].
    split; [intros _; read_dict | intros _; eexists; read_dict].
  - destruct (tool_confirmation (tool_context w)) as [c|]; simpl;
      [destruct (confirmed c)|].
    + split_and!; [intros _; split_and!; read_dict | read_dict |].
      split; [intros _; read_dict | intros _; eexists; read_dict].
    + split_and!; [read_dict | intros _; read_dict |].
      split; [intros [v Hv]; read_dict | read_dict].
    + split_and!; [read_dict | read_dict |].
      split; [intros [v Hv]; read_dict | read_dict].
Qed.

Lemma shipping_result_fields_witness :
  (place_shipping_order 3 "Rotterdam" fresh).1 !! "num_containers"
  = Some (VInt 3)
  ∧ (place_shipping_order 3 "Rotterdam" fresh).1 !! "destination"
    = Some (VStr "Rotterdam")
  ∧ dom (place_shipping_order 10 "Rotterdam" (resume (decision false) fresh)).1
    = {[ "status"; "message" ]}.
Proof.
  pose proof (shipping_result_fields 3 "Rotterdam" fresh) as (Happ & _).
  pose proof (shipping_result_fields 10 "Rotterdam"
                (resume (decision false) fresh)) as (_ & Hrej & _).
  split_and!.
  - apply Happ. reflexivity.
  - apply Happ. reflexivity.
  - apply Hrej. reflexivity.
Defined.

(** X4: a [request_image_generation] result has exactly the keys status
    and message in every branch, approved or not, and its message is a
    string: the image tool returns no domain field at all. *)
Theorem image_result_fields (prompt : string) (n : Z) (w : World) :
  let r := (request_image_generation prompt n w).1 in
  dom r = {[ "status"; "message" ]}
  ∧ ∃ text, r !! "message" = Some (VStr text).
Proof.
  intros r. subst r. run_tool. split_threshold n 1.
  - split; [read_dict | eexists; read_dict].
  - destruct (tool_confirmation (tool_context w)) as [c|]; simpl;
      [destruct (confirmed c)|]; (split; [read_dict | eexists; read_dict]).
Qed.

(** ** What a call does to the world *)





(** ** Suspending and resuming *)

(** X7: a suspended order resumed with the same arguments.  For every
    quantity above the threshold, the first call (no decision attached)
    returns "pending"; the call resumed in the resulting world with the
    decision [b] returns "approved" or "rejected" as [b] says.  An approved
    order carries the quantity and destination that the pending record's
    payload showed to the approver.  The resumed call leaves the pending
    record where it is, and repeating it returns the same result again:
    the tool itself neither clears the record nor guards against a second
    resumption. *)
Theorem shipping_suspend_then_resume
    (n : Z) (dest : string) (w : World) (b : bool) :
  LARGE_ORDER_THRESHOLD < n → attached w = None →
  let first := place_shipping_order n dest w in
  let second := place_shipping_order n dest (resume (decision b) first.2) in
  status first.1 = Some (VStr "pending")
  ∧ status second.1 = Some (VStr (if b then "approved" else "rejected"))
  ∧ (∃ record shown,
       last (pending_records first.2) = Some record
       ∧ payload record = Some shown
       ∧ (b = true →
          second.1 !! "num_containers" = shown !! "num_containers"
          ∧ second.1 !! "destination" = shown !! "destination"))
  ∧ pending_records second.2 = pending_records first.2
  ∧ place_shipping_order n dest second.2 = second.
Proof.
  intros Hn Hnone first second.
  destruct (shipping_suspend n dest w Hn Hnone)
    as (Hst & _ & (h & Hrec) & _ & _).
  fold first in Hst, Hrec.
  assert (Hatt : attached (resume (decision b) first.2) = Some (decision b))
    by reflexivity.
  destruct (shipping_resumed n dest _ (decision b) Hn Hatt)
    as (Hst' & _ & Hw).
  fold second in Hst', Hw. split_and!.
  - exact Hst.
  - exact Hst'.
  - eexists _, _. rewrite Hrec, last_snoc. split_and!; [reflexivity..|].
    intros ->. subst second. run_tool. split_threshold n 5.
    split; read_dict.
  - rewrite Hw. reflexivity.
  - rewrite Hw. reflexivity.
Qed.

Lemma shipping_suspend_then_resume_witness :
  let first := place_shipping_order 10 "Rotterdam" fresh in
  let second :=
    place_shipping_order 10 "Rotterdam" (resume (decision true) first.2) in
  status second.1 = Some (VStr "approved")
  ∧ length (pending_records second.2) = 1%nat
  ∧ place_shipping_order 10 "Rotterdam" second.2 = second.
Proof.
  intros first second.
  assert (Hn : LARGE_ORDER_THRESHOLD < 10) by (unfold LARGE_ORDER_THRESHOLD; lia).
  pose proof (shipping_suspend_then_resume 10 "Rotterdam" fresh true Hn eq_refl)
    as (_ & Hst & _ & Hrec & Hagain).
  split_and!.
  - exact Hst.
  - fold first second in Hrec. rewrite Hrec. reflexivity.
  - exact Hagain.
Defined.



(** ** Order identifiers, continued *)

Lemma string_length_app (s t : string) :
  String.length (s +:+ t) = (String.length s + String.length t)%nat.
Proof.
  induction s as [|a s IH]; [reflexivity|].
  rewrite app_cons. simpl. rewrite IH. reflexivity.
Qed.

(** A common suffix cancels. *)
Lemma app_inj_r (s t u : string) : s +:+ u = t +:+ u → s = t.
Proof.
  revert t. induction s as [|a s IH]; intros [|b t] Heq.
  - reflexivity.
  - apply (f_equal String.length) in Heq.
    change ("" +:+ u) with u in Heq.
    rewrite app_cons in Heq. simpl in Heq. rewrite string_length_app in Heq.
    lia.
  - apply (f_equal String.length) in Heq.
    change ("" +:+ u) with u in Heq.
    rewrite app_cons in Heq. simpl in Heq. rewrite string_length_app in Heq.
    lia.
  - rewrite !app_cons in Heq. injection Heq as -> Heq.
    f_equal. apply IH, Heq.
Qed.

(** The order id of an approved order, by quantity. *)
Lemma approved_order_id (n : Z) (dest : string) (w : World) :
  status (place_shipping_order n dest w).1 = Some (VStr "approved") →
  (place_shipping_order n dest w).1 !! "order_id"
  = Some (VStr ("ORD-" +:+ str_of_int n +:+
                (if n <=? LARGE_ORDER_THRESHOLD then "-AUTO" else "-HUMAN"))).
Proof.
  intros Hst. destruct (Z.leb_spec n LARGE_ORDER_THRESHOLD) as [Hn|Hn].
  - apply shipping_auto, Hn.
  - rewrite shipping_status in Hst.
    destruct (Z.leb_spec n LARGE_ORDER_THRESHOLD); [lia|].
    destruct (attached w) as [c|] eqn:Hatt; [|discriminate Hst].
    destruct (shipping_resumed n dest w c Hn Hatt) as (_ & Hid & _).
    destruct (confirmed c); [exact Hid | discriminate Hst].
Qed.

(** X9: the order id is made from the quantity and the approval path
    alone.  Two approved orders have the same order id exactly when they
    are for the same quantity, whatever their destinations and contexts:
    ids tell quantities apart, and do not tell apart two orders of the same
    quantity. *)
Theorem order_id_determined_by_quantity
    (n m : Z) (dest dest' : string) (w w' : World) :
  status (place_shipping_order n dest w).1 = Some (VStr "approved") →
  status (place_shipping_order m dest' w').1 = Some (VStr "approved") →
  ((place_shipping_order n dest w).1 !! "order_id"
   = (place_shipping_order m dest' w').1 !! "order_id"
   ↔ n = m).
Proof.
  intros Hn Hm.
  rewrite (approved_order_id n dest w Hn), (approved_order_id m dest' w' Hm).
  split; [|intros ->; reflexivity].
  intros [= Heq].
  change (str_of_int n
            +:+ (if n <=? LARGE_ORDER_THRESHOLD then "-AUTO" else "-HUMAN")
          = str_of_int m
            +:+ (if m <=? LARGE_ORDER_THRESHOLD then "-AUTO" else "-HUMAN"))
    in Heq.
  destruct (Z.leb_spec n LARGE_ORDER_THRESHOLD),
    (Z.leb_spec m LARGE_ORDER_THRESHOLD).
  - apply app_inj_r in Heq. apply (inj pretty), Heq.
  - exfalso. apply (human_id_is_no_auto_id m n). rewrite Heq. reflexivity.
  - exfalso. apply (human_id_is_no_auto_id n m). rewrite Heq. reflexivity.
  - apply app_inj_r in Heq. apply (inj pretty), Heq.
Qed.

Lemma order_id_determined_by_quantity_witness :
  (place_shipping_order 3 "Rotterdam" fresh).1 !! "order_id"
  = (place_shipping_order 3 "Oslo" (resume (decision false) fresh)).1
      !! "order_id"
  ∧ (place_shipping_order 3 "Rotterdam" fresh).1 !! "order_id"
    ≠ (place_shipping_order 4 "Rotterdam" fresh).1 !! "order_id".
Proof.
  split.
  - apply (order_id_determined_by_quantity 3 3 "Rotterdam" "Oslo" fresh
             (resume (decision false) fresh)); reflexivity.
  - intros Heq.
    apply (order_id_determined_by_quantity 3 4 "Rotterdam" "Rotterdam"
             fresh fresh) in Heq; [discriminate Heq | reflexivity..].
Defined.

(** X10: the tools put no lower bound on the size attribute.  Zero and
    negative quantities are at or below the threshold, so they are approved
    on the spot by both tools, with no confirmation requested; the order
    echoes the quantity as given, and for a negative quantity the order id
    carries its minus sign: "ORD--k-AUTO" for the quantity [-k]. *)
Theorem nonpositive_quantity_is_approved
    (n : Z) (dest prompt : string) (w : World) :
  n ≤ 0 →
  status (place_shipping_order n dest w).1 = Some (VStr "approved")
  ∧ (place_shipping_order n dest w).1 !! "num_containers" = Some (VInt n)
  ∧ (place_shipping_order n dest w).2 = w
  ∧ (n < 0 →
     (place_shipping_order n dest w).1 !! "order_id"
     = Some (VStr ("ORD--" +:+ str_of_int (- n) +:+ "-AUTO")))
  ∧ status (request_image_generation prompt n w).1 = Some (VStr "approved")
  ∧ pending_records (request_image_generation prompt n w).2
    = pending_records w.
Proof.
  intros Hn.
  assert (Hship : n ≤ LARGE_ORDER_THRESHOLD)
    by (unfold LARGE_ORDER_THRESHOLD; lia).
  assert (Himg : n ≤ BULK_THRESHOLD) by (unfold BULK_THRESHOLD; lia).
  destruct (shipping_auto n dest w Hship) as (Hst & Hid & Hw).
  destruct (image_auto prompt n w Himg) as (Hst' & _ & Hctx).
  split_and!; try assumption.
  - clear Hst Hid Hw Hst' Hctx. run_tool. split_threshold n 5. read_dict.
  - intros Hneg. rewrite Hid. destruct n as [|p|p]; try lia. reflexivity.
  - unfold pending_records. rewrite Hctx. reflexivity.
Qed.

Lemma nonpositive_quantity_is_approved_witness :
  status (place_shipping_order 0 "Rotterdam" fresh).1 = Some (VStr "approved")
  ∧ (place_shipping_order (-3) "Rotterdam" fresh).1 !! "order_id"
    = Some (VStr "ORD--3-AUTO")
  ∧ status (request_image_generation "a cat" (-1) fresh).1
    = Some (VStr "approved").
Proof.
  split_and!.
  - apply (nonpositive_quantity_is_approved 0 "Rotterdam" "a cat" fresh). lia.
  - assert (Hn : -3 ≤ 0) by lia.
    pose proof (nonpositive_quantity_is_approved (-3) "Rotterdam" "a cat"
                  fresh Hn) as (_ & _ & _ & Hid & _).
    apply Hid. lia.
  - apply (nonpositive_quantity_is_approved (-1) "Rotterdam" "a cat" fresh).
    lia.
Defined.

(** ** The lookups of the currency converter, continued *)

(** The fee table, key by key. *)
Lemma fee_database_lookup (key : string) :
  fee_database !! key
  = if decide (key = "platinum credit card") then Some 0.02%Q
    else if decide (key = "gold debit card") then Some 0.035%Q
    else if decide (key = "bank transfer") then Some 0.01%Q
    else None.
Proof.
  unfold fee_database. repeat case_decide; subst; try reflexivity.
  rewrite !lookup_insert_ne by congruence. apply lookup_empty.
Qed.

(** The rate table of the only base, key by key. *)
Lemma rate_lookup (base target : string) :
  default ∅ (rate_database !! base) !! target
  = if decide (base = "usd") then
      if decide (target = "eur") then Some 0.93%Q
      else if decide (target = "jpy") then Some 157.5%Q
      else if decide (target = "inr") then Some 83.58%Q
      else None
    else None.
Proof.
  rewrite rates_of_base. case_decide; [|apply lookup_empty].
  repeat case_decide; subst; try reflexivity.
  rewrite !lookup_insert_ne by congruence. apply lookup_empty.
Qed.

Lemma lower_app (s t : string) : lower (s +:+ t) = lower s +:+ lower t.
Proof.
  induction s as [|a s IH]; [reflexivity|].
  rewrite app_cons. simpl. rewrite IH. reflexivity.
Qed.



(** X12: a lookup result is one of two shapes.  Either its status is
    "success" and its keys are exactly status and fee_percentage (status
    and rate for the exchange rate), or its status is "error" and its keys
    are exactly status and error_message: a result never carries both a
    value and an error message, and never lacks both. *)
Theorem lookup_result_shape (method base target : string) :
  let fee := get_fee_for_payment_method method in
  let rate := get_exchange_rate base target in
  ((status fee = Some (VStr "success")
    ∧ dom fee = {[ "status"; "fee_percentage" ]})
   ∨ (status fee = Some (VStr "error")
      ∧ dom fee = {[ "status"; "error_message" ]}))
  ∧ ((status rate = Some (VStr "success")
      ∧ dom rate = {[ "status"; "rate" ]})
     ∨ (status rate = Some (VStr "error")
        ∧ dom rate = {[ "status"; "error_message" ]})).
Proof.
  intros fee rate. subst fee rate.
  unfold get_fee_for_payment_method, get_exchange_rate. split.
  - destruct (fee_database !! lower method);
      [left | right]; split; read_dict.
  - destruct (default ∅ (rate_database !! lower base) !! lower target);
      [left | right]; split; read_dict.
Qed.

(** X13: the rate table goes one way.  Whenever the rate from [base] to
    [target] is found, the rate from [target] back to [base] is not: the
    only base is "usd" and "usd" is no target.  In particular no currency
    has a rate to itself. *)
Theorem exchange_rate_one_way (base target : string) :
  status (get_exchange_rate base target) = Some (VStr "success") →
  status (get_exchange_rate target base) = Some (VStr "error")
  ∧ lower base ≠ lower target.
Proof.
  unfold get_exchange_rate. rewrite !rate_lookup. intros Hst.
  destruct (decide (lower base = "usd")) as [Hbase|]; [|read_dict].
  destruct (decide (lower target = "usd")) as [Htarget|].
  - rewrite Htarget in Hst. simpl in Hst. read_dict.
  - split; [read_dict | congruence].
Qed.

Lemma exchange_rate_one_way_witness :
  status (get_exchange_rate "USD" "EUR") = Some (VStr "success")
  ∧ status (get_exchange_rate "EUR" "USD") = Some (VStr "error").
Proof.
  split; [reflexivity|].
  apply (exchange_rate_one_way "USD" "EUR"). reflexivity.
Defined.

(** A key that ends in a space is none of the table keys. *)
Lemma padded_right_is_no_key (s key : string) (a : ascii) :
  a ≠ " "%char → s +:+ " " ≠ key +:+ String a "".
Proof. intros Ha Heq. apply app_last_char in Heq. congruence. Qed.

(** X14: the lookups lower-case their keys and do nothing else to them; in
    particular they do not strip blanks.  A payment method or a currency
    code with a space before or after it is not found, whatever it is, and
    neither is the empty string. *)
Theorem lookup_keys_are_not_trimmed (s other : string) :
  let error (r : dict) := status r = Some (VStr "error") in
  error (get_fee_for_payment_method (" " +:+ s))
  ∧ error (get_fee_for_payment_method (s +:+ " "))
  ∧ error (get_fee_for_payment_method "")
  ∧ error (get_exchange_rate (" " +:+ s) other)
  ∧ error (get_exchange_rate (s +:+ " ") other)
  ∧ error (get_exchange_rate other (" " +:+ s))
  ∧ error (get_exchange_rate other (s +:+ " "))
  ∧ error (get_exchange_rate "" other)
  ∧ error (get_exchange_rate other "").
Proof.
  intros error. subst error. simpl.
  assert (Hfee : ∀ key, fee_database !! (lower key +:+ " ") = None).
  { intros key. rewrite fee_database_lookup.
    rewrite !decide_False; [reflexivity|..].
    - apply (padded_right_is_no_key _ "bank transfe" "r"). discriminate.
    - apply (padded_right_is_no_key _ "gold debit car" "d"). discriminate.
    - apply (padded_right_is_no_key _ "platinum credit car" "d").
      discriminate. }
  assert (Hbase : ∀ key t,
             default ∅ (rate_database !! (lower key +:+ " ")) !! t = None).
  { intros key t. rewrite rate_lookup. rewrite decide_False; [reflexivity|].
    apply (padded_right_is_no_key _ "us" "d"). discriminate. }
  assert (Htarget : ∀ key b,
             default ∅ (rate_database !! b) !! (lower key +:+ " ") = None).
  { intros key b. rewrite rate_lookup. case_decide; [|reflexivity].
    rewrite !decide_False; [reflexivity|..].
    - apply (padded_right_is_no_key _ "in" "r"). discriminate.
    - apply (padded_right_is_no_key _ "jp" "y"). discriminate.
    - apply (padded_right_is_no_key _ "eu" "r"). discriminate. }
  unfold get_fee_for_payment_method, get_exchange_rate.
  rewrite !lower_app. change (lower " ") with " ". change (lower "") with "".
  rewrite Hfee, Hbase, Htarget, fee_database_lookup, !rate_lookup.
  change (" " +:+ lower s) with (String " " (lower s)).
  rewrite !(decide_False (P := String " " (lower s) = _)) by discriminate.
  simpl. split_and!; try (read_dict; fail).
  - case_decide; read_dict.
  - case_decide; read_dict.
Qed.

(** ** What a result depends on *)

(** X15: the result of either tool is a function of its arguments and of
    the attached decision's [confirmed] flag (or the absence of a
    decision).  The hint and payload of the decision, the pending records
    already written and the lines already printed have no influence on
    it. *)
Theorem result_depends_on_confirmed_flag_only
    (n : Z) (dest prompt : string) (w w' : World) :
  confirmed <$> attached w = confirmed <$> attached w' →
  (place_shipping_order n dest w).1 = (place_shipping_order n dest w').1
  ∧ (request_image_generation prompt n w).1
    = (request_image_generation prompt n w').1.
Proof.
  intros Heq. run_tool.
  split; [split_threshold n 5 | split_threshold n 1]; try reflexivity;
    destruct (tool_confirmation (tool_context w)) as [c|],
      (tool_confirmation (tool_context w')) as [c'|];
    simpl in *; try discriminate Heq; try reflexivity;
    injection Heq as ->; destruct (confirmed c'); reflexivity.
Qed.

Lemma result_depends_on_confirmed_flag_only_witness :
  let approver_note :=
    {| hint := "checked with the customer"; confirmed := true;
       payload := Some (mk_dict [("num_containers", VInt 2)]) |} in
  (place_shipping_order 10 "Rotterdam" (resume approver_note fresh)).1
  = (place_shipping_order 10 "Rotterdam"
       (resume (decision true)
          (place_shipping_order 10 "Rotterdam" fresh).2)).1.
Proof.
  intros approver_note.
  apply (result_depends_on_confirmed_flag_only 10 "Rotterdam" "a cat"
           (resume approver_note fresh)
           (resume (decision true)
              (place_shipping_order 10 "Rotterdam" fresh).2)).
  reflexivity.
Defined.
